(** * TemplateModule.js: the proof-of-existence panel

    A shallow embedding of [src/TemplateModule.js]: the file-hashing glue
    ([bufferToDigest]), the subscription effect ([useEffect]), the rendered
    transaction buttons ([Main]) and the guard of the exported component
    ([TemplateModule]).

    External packages ([@polkadot/util-crypto], the chain client, React) are
    not part of the file: the hash primitive is a section variable, the chain
    client is represented by the values and handles it delivers, and React
    state is a record updated by the setters the component calls. *)

From Stdlib Require Import NArith ZArith List String Ascii Strings.Byte.
From Stdlib Require Import HexadecimalString Lia.
From stdpp Require Import base option gmap strings.
Import ListNotations.

Local Open Scope string_scope.

(** ** JavaScript primitives used by the component *)

Module JS.

(** Exceptions a call can raise. *)
Inductive Exn : Type :=
| TypeError (msg : string)
| LibError (msg : string).

(** The outcome of an expression that may throw. *)
Inductive Result (A : Type) : Type :=
| Ok (a : A)
| Throw (e : Exn).
Arguments Ok {A} a.
Arguments Throw {A} e.

(** The values the component stores in [currentValue] and [formValue]:
    numbers and strings. *)
Inductive Value : Type :=
| VNum (n : Z)
| VStr (s : string).

(** [!!s] on a string: only the empty string is falsy. *)
Definition truthy_string (s : string) : bool :=
  match s with
  | EmptyString => false
  | String _ _ => true
  end.

(** [Number.prototype.toString(16)] on a non-negative integer: lowercase
    digits, no leading zero, ["0"] for zero. *)
Definition toString16 (n : N) : string :=
  NilZero.string_of_uint (N.to_hex_uint n).

(** [padString] repeated [n] times. *)
Fixpoint repeat_string (padString : string) (n : nat) : string :=
  match n with
  | O => ""
  | S n' => padString ++ repeat_string padString n'
  end.

(** [String.prototype.padStart(targetLength, padString)]: a string already
    long enough, or an empty pad, gives the string back; otherwise the pad
    is repeated and cut to the missing length. *)
Definition padStart (targetLength : nat) (padString : string) (s : string)
  : string :=
  let len := String.length s in
  if (targetLength <=? len)%nat then s
  else match padString with
       | EmptyString => s
       | _ =>
           let fillLen := (targetLength - len)%nat in
           substring 0 fillLen (repeat_string padString fillLen) ++ s
       end.

(** [Array.prototype.join(separator)] on an array of strings. *)
Definition join (separator : string) (parts : list string) : string :=
  String.concat separator parts.

(** [new Uint8Array(buffer)]: the bytes of the buffer; [null] (a reader that
    has no result) gives the empty array. *)
Definition Uint8Array (buffer : option (list byte)) : list byte :=
  match buffer with
  | Some bytes => bytes
  | None => []
  end.

End JS.

Import JS.

(** ** Hexadecimal encoding (lines 33-35) *)

Module Hex.

(** The arrow function [(b) => b.toString(16).padStart(2, '0')]. *)
Definition byte_to_hex (b : byte) : string :=
  padStart 2 "0" (toString16 (Byte.to_N b)).

(** [Array.from(new Uint8Array(result)).map(...).join('')]. *)
Definition content (result : option (list byte)) : string :=
  join "" (map byte_to_hex (Uint8Array result)).

(** *** The encoding as the specification words it *)

(** The sixteen lowercase base-16 digits, by value. *)
Definition digits : string := "0123456789abcdef".

(** The digit of a value below 16. *)
Definition digit (d : N) : ascii :=
  match String.get (N.to_nat d) digits with
  | Some c => c
  | None => "f"%char
  end.

(** A byte as exactly two digits, high nibble first. *)
Definition two_digits (b : byte) : string :=
  let n := Byte.to_N b in
  String (digit (n / 16)) (String (digit (n mod 16)) "").

(** The bytes rendered one after the other. *)
Fixpoint hex_encode (B : list byte) : string :=
  match B with
  | [] => ""
  | b :: B' => two_digits b ++ hex_encode B'
  end.

(** The value of a lowercase base-16 digit: its place in [digits]. *)
Definition digit_value (c : ascii) : option N :=
  match String.index 0 (String c "") digits with
  | Some i => Some (N.of_nat i)
  | None => None
  end.

Definition is_lower_hex (c : ascii) : bool :=
  match digit_value c with
  | Some _ => true
  | None => false
  end.

(** Decoding: two digits per byte; anything else is refused. *)
Fixpoint hex_decode (s : string) : option (list byte) :=
  match s with
  | EmptyString => Some []
  | String hi (String lo rest) =>
      match digit_value hi, digit_value lo, hex_decode rest with
      | Some h, Some l, Some B =>
          match Byte.of_N (16 * h + l) with
          | Some b => Some (b :: B)
          | None => None
          end
      | _, _, _ => None
      end
  | String _ EmptyString => None
  end.

Fixpoint all_chars (p : ascii -> bool) (s : string) : bool :=
  match s with
  | EmptyString => true
  | String c s' => p c && all_chars p s'
  end.

End Hex.

(** ** The component's data *)

Module Component.

(** [BN.prototype.toNumber()] of the chain client's integers: refused above
    53 bits, as a JavaScript number cannot hold more. *)
Definition toNumber (n : N) : Result Z :=
  if (n <? 2 ^ 53)%N then Ok (Z.of_N n)
  else Throw (LibError "Number can only safely store up to 53 bits").

(** The range of the chain's [u32]. *)
Definition is_u32 (n : N) : Prop := (n < 2 ^ 32)%N.

(** The selected account handed down by the parent. *)
Record AccountPair : Type := { address : string }.

(** [props]: [accountPair] is [None] while the parent has no account
    ([null]); reading a property of it then throws. *)
Record Props : Type := { accountPair : option AccountPair }.

(** The six [useState] cells of [Main] (lines 17-25). *)
Record State : Type := {
  status : string;
  digest : string;
  owner : string;
  block : Z;
  currentValue : Value;
  formValue : Value
}.

(** The initial values given to [useState]. *)
Definition initial : State :=
  {| status := ""; digest := ""; owner := ""; block := 0;
     currentValue := VNum 0; formValue := VNum 0 |}.

Definition setStatus (s : string) (st : State) : State :=
  {| status := s; digest := digest st; owner := owner st;
     block := block st; currentValue := currentValue st;
     formValue := formValue st |}.

Definition setDigest (s : string) (st : State) : State :=
  {| status := status st; digest := s; owner := owner st;
     block := block st; currentValue := currentValue st;
     formValue := formValue st |}.

Definition setOwner (s : string) (st : State) : State :=
  {| status := status st; digest := digest st; owner := s;
     block := block st; currentValue := currentValue st;
     formValue := formValue st |}.

Definition setBlock (n : Z) (st : State) : State :=
  {| status := status st; digest := digest st; owner := owner st;
     block := n; currentValue := currentValue st;
     formValue := formValue st |}.

Definition setCurrentValue (v : Value) (st : State) : State :=
  {| status := status st; digest := digest st; owner := owner st;
     block := block st; currentValue := v; formValue := formValue st |}.

Definition setFormValue (v : Value) (st : State) : State :=
  {| status := status st; digest := digest st; owner := owner st;
     block := block st; currentValue := currentValue st; formValue := v |}.

(** What a callback leaves behind: the state after the setters it reached,
    and the exception that stopped it, if any. *)
Definition Outcome : Type := (State * option Exn)%type.

(** The browser's [FileReader]: [result] is [null] until a read has
    succeeded. *)
Record FileReader : Type := { result : option (list byte) }.

(** What the closures of one render of [Main] see: the props, the state of
    that render and the [let fileReader] of line 28. *)
Record Scope : Type := {
  props : Props;
  state : State;
  fileReader : option FileReader
}.

(** ** The hashing glue (lines 31-39) *)

Section Hashing.

(** [blake2AsHex(data, bitLength)] of [@polkadot/util-crypto]. *)
Variable blake2AsHex : string -> N -> Result string.

Definition bufferToDigest (sc : Scope) : Outcome :=
  match fileReader sc with
  | None =>
      (state sc, Some (TypeError "fileReader is undefined"))
  | Some reader =>
      let content := Hex.content (result reader) in
      match blake2AsHex content 256 with
      | Ok hash => (setDigest hash (state sc), None)
      | Throw e => (state sc, Some e)
      end
  end.

(** [handleFileChosen] (lines 75-79) followed by the reader's [loadend]:
    the scope's reader is replaced by a fresh one, the browser fills in
    the outcome of the read ([None] when it failed) and fires
    [onloadend], which is [bufferToDigest]. *)
Definition handleFileChosen (read : option (list byte)) (sc : Scope)
  : Outcome :=
  let sc' := {| props := props sc; state := state sc;
                fileReader := Some {| result := read |} |} in
  bufferToDigest sc'.


End Hashing.

(** ** The subscription callbacks (lines 44-52 and 60-64) *)

(** The callback given to [templateModule.something]; [newValue] is the
    chain's [Option<u32>]. *)
Definition somethingCallback (newValue : option N) (st : State) : Outcome :=
  match newValue with
  | None => (setCurrentValue (VStr "<None>") st, None)
  | Some v =>
      match toNumber v with
      | Ok n => (setCurrentValue (VNum n) st, None)
      | Throw e => (st, Some e)
      end
  end.

(** The callback given to [templateModule.proofs]; [result] is the stored
    tuple (owner, block number). *)
Definition proofsCallback (result : string * N) (st : State) : Outcome :=
  let st1 := setOwner (fst result) st in
  match toNumber (snd result) with
  | Ok n => (setBlock n st1, None)
  | Throw e => (st1, Some e)
  end.

End Component.

(** ** The subscription effect (lines 42-72) *)

Module Subscriptions.
Import Component.

(** The two storage queries the effect subscribes to. *)
Inductive Query : Type :=
| Something
| Proofs (digest : string).

(** How the promise of a subscription settles: the chain client hands over
    the unsubscribe function of the subscription it opened (named here by
    a number), or rejects. *)
Inductive Settlement : Type :=
| Resolved (unsub : nat)
| Rejected (reason : Exn).

(** One run of the effect: the queries it issued, its single
    [let unsubscribe], the subscriptions of this run that are still open,
    what went to [console.error], the rejections nobody handled, and the
    unsubscribe functions called so far. *)
Record Run : Type := {
  requested : list Query;
  unsubscribe : option nat;
  active : gset nat;
  console_error : list Exn;
  unhandled : list Exn;
  called : list nat
}.

(** The body of the effect up to its [return]: both queries are issued and
    [unsubscribe] is still undefined. *)
Definition useEffect (st : State) : Run :=
  {| requested := [Something; Proofs (digest st)];
     unsubscribe := None; active := ∅;
     console_error := []; unhandled := []; called := [] |}.

(** The [then] callback of both chains: [unsubscribe = unsub]. *)
Definition assign_unsubscribe (unsub : nat) (r : Run) : Run :=
  {| requested := requested r;
     unsubscribe := Some unsub; active := {[unsub]} ∪ active r;
     console_error := console_error r; unhandled := unhandled r;
     called := called r |}.

(** [.then(...).catch(console.error)] on the [something] promise. *)
Definition something_settled (s : Settlement) (r : Run) : Run :=
  match s with
  | Resolved unsub => assign_unsubscribe unsub r
  | Rejected reason =>
      {| requested := requested r;
         unsubscribe := unsubscribe r; active := active r;
         console_error := console_error r ++ [reason];
         unhandled := unhandled r; called := called r |}
  end.

(** [.then(...)] on the [proofs] promise: no [catch]. *)
Definition proofs_settled (s : Settlement) (r : Run) : Run :=
  match s with
  | Resolved unsub => assign_unsubscribe unsub r
  | Rejected reason =>
      {| requested := requested r;
         unsubscribe := unsubscribe r; active := active r;
         console_error := console_error r;
         unhandled := unhandled r ++ [reason]; called := called r |}
  end.

(** The returned function: [() => unsubscribe && unsubscribe()]. *)
Definition cleanup (r : Run) : Run :=
  match unsubscribe r with
  | None => r
  | Some unsub =>
      {| requested := requested r;
         unsubscribe := unsubscribe r; active := active r ∖ {[unsub]};
         console_error := console_error r; unhandled := unhandled r;
         called := called r ++ [unsub] |}
  end.

Inductive Event : Type :=
| SomethingSettled (s : Settlement)
| ProofsSettled (s : Settlement)
| Cleanup.

Definition step (r : Run) (ev : Event) : Run :=
  match ev with
  | SomethingSettled s => something_settled s r
  | ProofsSettled s => proofs_settled s r
  | Cleanup => cleanup r
  end.

Definition run (r : Run) (evs : list Event) : Run := fold_left step evs r.

End Subscriptions.

(** ** What [Main] renders (lines 82-179) *)

Module View.
Import Component.

Record TxAttrs : Type := {
  palletRpc : string;
  callable : string;
  inputParams : list Value;
  paramFields : list bool
}.

(** The props of one [TxButton]; [disabled] is [None] where the markup
    does not give it. *)
Record TxButton : Type := {
  tx_accountPair : option AccountPair;
  label : string;
  type : string;
  tx_setStatus : string -> State -> State;
  disabled : option bool;
  attrs : TxAttrs
}.

Record Rendered : Type := {
  statistic_value : Value;
  form_success : bool;
  form_warning : bool;
  unclaimed_content : string;
  buttons : list TxButton;
  status_text : string
}.

(** [isClaimed] (lines 82-84): [block !== 0]. *)
Definition isClaimed (st : State) : bool := negb (block st =? 0)%Z.

(** [isClaimed() || !digest]. *)
Definition createClaim_disabled (st : State) : bool :=
  isClaimed st || negb (truthy_string (digest st)).

(** [!isClaimed() || owner !== accountPair.address]: the right operand is
    evaluated only for a claimed digest, and throws on a missing
    [accountPair]. *)
Definition revokeClaim_disabled (p : Props) (st : State) : Result bool :=
  if negb (isClaimed st) then Ok true
  else match accountPair p with
       | None => Throw (TypeError "accountPair is null")
       | Some account => Ok (negb (String.eqb (owner st) (address account)))
       end.

Definition storeSomething_button (p : Props) (st : State) : TxButton :=
  {| tx_accountPair := accountPair p;
     label := "Store Something";
     type := "SIGNED-TX";
     tx_setStatus := setStatus;
     disabled := None;
     attrs := {| palletRpc := "templateModule";
                 callable := "doSomething";
                 inputParams := [formValue st];
                 paramFields := [true] |} |}.

Definition createClaim_button (p : Props) (st : State) : TxButton :=
  {| tx_accountPair := accountPair p;
     label := "Create Claim";
     type := "SIGNED-TX";
     tx_setStatus := setStatus;
     disabled := Some (createClaim_disabled st);
     attrs := {| palletRpc := "templateModule";
                 callable := "createClaim";
                 inputParams := [VStr (digest st)];
                 paramFields := [true] |} |}.

Definition revokeClaim_button (p : Props) (st : State) (off : bool)
  : TxButton :=
  {| tx_accountPair := accountPair p;
     label := "Revoke Claim";
     type := "SIGNED-TX";
     tx_setStatus := setStatus;
     disabled := Some off;
     attrs := {| palletRpc := "templateModule";
                 callable := "revokeClaim";
                 inputParams := [VStr (digest st)];
                 paramFields := [true] |} |}.

(** The [return] of [Main]: the only expression of the markup that can
    throw is the [disabled] of Revoke Claim. *)
Definition Main (p : Props) (st : State) : Result Rendered :=
  match revokeClaim_disabled p st with
  | Throw e => Throw e
  | Ok off =>
      Ok {| statistic_value := currentValue st;
            form_success := truthy_string (digest st) && negb (isClaimed st);
            form_warning := isClaimed st;
            unclaimed_content := digest st;
            buttons := [storeSomething_button p st;
                        createClaim_button p st;
                        revokeClaim_button p st off];
            status_text := status st |}
  end.

(** What a button submits: its type, pallet, call and parameters. *)
Definition submission (b : TxButton)
  : string * string * string * list Value :=
  (type b, palletRpc (attrs b), callable (attrs b), inputParams (attrs b)).

(** *** The events that reach the component *)

Inductive Event : Type :=
| InputChanged (value : string)
| FileChosen (read : option (list byte))
| SomethingDelivered (newValue : option N)
| ProofsDelivered (result : string * N)
| StatusReported (s : string).

Section Events.

Variable blake2AsHex : string -> N -> Result string.
Variable p : Props.

(** The callback each event runs; [StatusReported] is a [TxButton]
    calling the [setStatus] it was given. *)
Definition handle (st : State) (ev : Event) : Outcome :=
  match ev with
  | InputChanged value => (setFormValue (VStr value) st, None)
  | FileChosen read =>
      handleFileChosen blake2AsHex read
        {| props := p; state := st; fileReader := None |}
  | SomethingDelivered newValue => somethingCallback newValue st
  | ProofsDelivered result => proofsCallback result st
  | StatusReported s => (setStatus s st, None)
  end.

Definition after (st : State) (ev : Event) : State := fst (handle st ev).

(** The state after a sequence of events, from the initial one. *)
Definition run (evs : list Event) : State := fold_left after evs initial.

(** The strings the buttons passed to their status sink, in order. *)
Fixpoint reported (evs : list Event) : list string :=
  match evs with
  | [] => []
  | StatusReported s :: evs' => s :: reported evs'
  | _ :: evs' => reported evs'
  end.

End Events.

End View.

(** ** The exported component (lines 182-186) *)

Module Exported.
Import Component.

(** A storage query function of the chain client. *)
Inductive StorageEntry : Type := Entry (id : nat).

(** [api.query]: pallets by name, each with its storage entries by name.
    A missing name reads as [undefined]; an entry that is there is a
    function, hence truthy. *)
Record Api : Type := { query : gmap string (gmap string StorageEntry) }.

Inductive Element : Type :=
| Null
| MainElement (p : Props).

(** [api.query.templateModule && api.query.templateModule.something &&
    api.query.templateModule.proofs ? <Main {...props} /> : null]. *)
Definition TemplateModule (api : Api) (p : Props) : Element :=
  match query api !! "templateModule" with
  | None => Null
  | Some pallet =>
      match pallet !! "something" with
      | None => Null
      | Some _ =>
          match pallet !! "proofs" with
          | None => Null
          | Some _ => MainElement p
          end
      end
  end.

(** [api.query.templateModule] is there and has both entries. *)
Definition has_both_queries (api : Api) : Prop :=
  exists pallet,
    query api !! "templateModule" = Some pallet
    /\ is_Some (pallet !! "something")
    /\ is_Some (pallet !! "proofs").

End Exported.

(** ** Several readers in one render (lines 28 and 75-79) *)

Module Readers.
Import Component.

(** The [FileReader]s that the [handleFileChosen] of one render has created,
    oldest first.  Each call assigns the new reader to the one
    [let fileReader] of that render, so the variable always names the
    newest; every reader has the same [onloadend], [bufferToDigest], which
    reads that variable. *)
Abbreviation Created := (list FileReader).

(** The value of [fileReader]: undefined before the first file. *)
Definition current (rs : Created) : option FileReader := list.last rs.

(** [handleFileChosen] up to [readAsArrayBuffer]: one more reader, whose
    read has not finished. *)
Definition choose (rs : Created) : Created :=
  (rs ++ [{| result := None |}])%list.

Section Loadend.

Variable blake2AsHex : string -> N -> Result string.

(** The browser ends the read of reader [k] with [outcome] and fires its
    [onloadend].  There is nothing to fire for a reader that was never
    created. *)
Definition loadend (k : nat) (outcome : option (list byte)) (p : Props)
  (rs : Created) (st : State) : Created * Outcome :=
  match rs !! k with
  | None => (rs, (st, None))
  | Some _ =>
      let rs' := <[k := {| result := outcome |}]> rs in
      (rs', bufferToDigest blake2AsHex
              {| props := p; state := st; fileReader := current rs' |})
  end.

End Loadend.

End Readers.

(** ** What a sequence of events contains *)

Module Traces.
Import Component.

(** The unsubscribe functions the two promises delivered, in order. *)
Fixpoint resolved (evs : list Subscriptions.Event) : list nat :=
  match evs with
  | [] => []
  | Subscriptions.SomethingSettled (Subscriptions.Resolved u) :: evs'
  | Subscriptions.ProofsSettled (Subscriptions.Resolved u) :: evs' =>
      u :: resolved evs'
  | _ :: evs' => resolved evs'
  end.

(** The reasons the [something] promise was rejected with. *)
Fixpoint something_rejections (evs : list Subscriptions.Event) : list Exn :=
  match evs with
  | [] => []
  | Subscriptions.SomethingSettled (Subscriptions.Rejected e) :: evs' =>
      e :: something_rejections evs'
  | _ :: evs' => something_rejections evs'
  end.

(** The reasons the [proofs] promise was rejected with. *)
Fixpoint proofs_rejections (evs : list Subscriptions.Event) : list Exn :=
  match evs with
  | [] => []
  | Subscriptions.ProofsSettled (Subscriptions.Rejected e) :: evs' =>
      e :: proofs_rejections evs'
  | _ :: evs' => proofs_rejections evs'
  end.

(** No cleanup among the events. *)
Fixpoint settlements_only (evs : list Subscriptions.Event) : bool :=
  match evs with
  | [] => true
  | Subscriptions.Cleanup :: _ => false
  | _ :: evs' => settlements_only evs'
  end.

(** No file was chosen. *)
Fixpoint no_file (evs : list View.Event) : bool :=
  match evs with
  | [] => true
  | View.FileChosen _ :: _ => false
  | _ :: evs' => no_file evs'
  end.

(** The [proofs] subscription delivered nothing. *)
Fixpoint no_proofs (evs : list View.Event) : bool :=
  match evs with
  | [] => true
  | View.ProofsDelivered _ :: _ => false
  | _ :: evs' => no_proofs evs'
  end.

(** What was typed into New Value, in order. *)
Fixpoint typed (evs : list View.Event) : list string :=
  match evs with
  | [] => []
  | View.InputChanged value :: evs' => value :: typed evs'
  | _ :: evs' => typed evs'
  end.

(** A number a [toNumber] can have returned. *)
Definition safe_number (n : Z) : Prop := (0 <= n < 2 ^ 53)%Z.

End Traces.

(** ** Concrete inputs used to exercise the results *)

Module Samples.
Import Component.

(** A stand-in for the hash primitive: it accepts every string. *)
Definition tagging_hash (data : string) (bitLength : N) : Result string :=
  Ok ("0x" ++ data).

(** A hash primitive that refuses every input. *)
Definition failing_hash (data : string) (bitLength : N) : Result string :=
  Throw (LibError "hash failed").

Definition alice : AccountPair := {| address := "5Grw" |}.

Definition with_account : Props := {| accountPair := Some alice |}.

Definition without_account : Props := {| accountPair := None |}.

Definition two_bytes : FileReader := {| result := Some [x01; xab] |}.

Definition scope_a : Scope :=
  {| props := with_account; state := initial;
     fileReader := Some two_bytes |}.


(** A claimed digest owned by the selected account. *)
Definition claimed_by_alice : State :=
  {| status := ""; digest := "0x01ab"; owner := "5Grw"; block := 12;
     currentValue := VNum 0; formValue := VNum 0 |}.

(** A digest another account claimed at block 7, with other cells set. *)
Definition claimed_elsewhere : State :=
  {| status := "sent"; digest := "0xff"; owner := "5FHn"; block := 7;
     currentValue := VStr "<None>"; formValue := VStr "42" |}.

End Samples.

(** ** Results on the hexadecimal encoding *)

Module HexFacts.
Import Hex.

Example toString16_samples :
  (toString16 0, toString16 10, toString16 255) = ("0", "a", "ff").
Proof. reflexivity. Qed.

Example padStart_samples :
  (padStart 2 "0" "a", padStart 2 "0" "ff", padStart 5 "ab" "x",
   padStart 3 "" "x")
  = ("0a", "ff", "ababx", "x").
Proof. reflexivity. Qed.

Example digit_value_samples :
  (digit_value "7", digit_value "c", digit_value "C", digit_value "g")
  = (Some 7%N, Some 12%N, None, None).
Proof. reflexivity. Qed.

Example hex_decode_samples :
  (hex_decode "000fa0ff", hex_decode "0", hex_decode "0G")
  = (Some [x00; x0f; xa0; xff], None, None).
Proof. reflexivity. Qed.

Example content_sample :
  content (Some [x00; x0f; xa0; xff]) = "000fa0ff".
Proof. reflexivity. Qed.

Lemma byte_to_hex_two_digits (b : byte) : byte_to_hex b = two_digits b.
Proof. destruct b; reflexivity. Qed.

Lemma digit_value_high (b : byte) :
  digit_value (digit (Byte.to_N b / 16)) = Some (Byte.to_N b / 16)%N.
Proof. destruct b; reflexivity. Qed.

Lemma digit_value_low (b : byte) :
  digit_value (digit (Byte.to_N b mod 16)) = Some (Byte.to_N b mod 16)%N.
Proof. destruct b; reflexivity. Qed.

Lemma of_N_nibbles (b : byte) :
  Byte.of_N (16 * (Byte.to_N b / 16) + Byte.to_N b mod 16) = Some b.
Proof. destruct b; reflexivity. Qed.

Lemma two_digits_append (b : byte) (rest : string) :
  two_digits b ++ rest
  = String (digit (Byte.to_N b / 16))
      (String (digit (Byte.to_N b mod 16)) rest).
Proof. reflexivity. Qed.

Lemma two_digits_decode (b : byte) (rest : string) :
  hex_decode (two_digits b ++ rest)
  = match hex_decode rest with
    | Some B => Some (b :: B)
    | None => None
    end.
Proof.
  rewrite two_digits_append. cbn [hex_decode].
  rewrite digit_value_high, digit_value_low, of_N_nibbles.
  reflexivity.
Qed.

Lemma append_empty_r (s : string) : s ++ "" = s.
Proof.
  induction s as [|c s IH]; [reflexivity |].
  change (String c (s ++ "") = String c s). now rewrite IH.
Qed.

Lemma join_empty_cons (x : string) (xs : list string) :
  join "" (x :: xs) = x ++ join "" xs.
Proof.
  unfold join. destruct xs as [|y ys]; cbn.
  - symmetry; apply append_empty_r.
  - reflexivity.
Qed.

Lemma content_hex_encode (B : list byte) : content (Some B) = hex_encode B.
Proof.
  unfold content; cbn [Uint8Array].
  induction B as [|b B IH].
  - reflexivity.
  - cbn [map]. rewrite join_empty_cons, IH, byte_to_hex_two_digits.
    reflexivity.
Qed.

Lemma hex_encode_length (B : list byte) :
  String.length (hex_encode B) = (2 * List.length B)%nat.
Proof.
  induction B as [|b B IH]; [reflexivity |].
  cbn [hex_encode List.length]. rewrite two_digits_append.
  cbn [String.length]. lia.
Qed.

Lemma hex_encode_lower (B : list byte) :
  all_chars is_lower_hex (hex_encode B) = true.
Proof.
  induction B as [|b B IH]; [reflexivity |].
  cbn [hex_encode]. rewrite two_digits_append. cbn [all_chars].
  unfold is_lower_hex at 1 2.
  now rewrite digit_value_high, digit_value_low, IH.
Qed.

Lemma hex_decode_encode (B : list byte) : hex_decode (hex_encode B) = Some B.
Proof.
  induction B as [|b B IH]; [reflexivity |].
  cbn [hex_encode]. now rewrite two_digits_decode, IH.
Qed.

(** C2: the string built inside [bufferToDigest] is the in-order
    concatenation of every byte rendered as two lowercase base-16 digits
    (a byte below 0x10 gets a leading '0'); its length is twice the number
    of bytes and decoding it gives the bytes back. *)
Theorem content_is_hex_encoding (B : list byte) :
  content (Some B) = hex_encode B
  /\ all_chars is_lower_hex (content (Some B)) = true
  /\ String.length (content (Some B)) = (2 * List.length B)%nat
  /\ hex_decode (content (Some B)) = Some B.
Proof.
  rewrite content_hex_encode.
  auto using hex_encode_length, hex_encode_lower, hex_decode_encode.
Qed.

End HexFacts.

(** ** Results on the hashing glue *)

Module HashFacts.
Import Component.

Section WithHash.

Variable blake2AsHex : string -> N -> Result string.

Lemma bufferToDigest_reader (sc : Scope) (reader : FileReader) :
  fileReader sc = Some reader ->
  bufferToDigest blake2AsHex sc
  = match blake2AsHex (Hex.content (result reader)) 256 with
    | Ok hash => (setDigest hash (state sc), None)
    | Throw e => (state sc, Some e)
    end.
Proof. intros Hfr. unfold bufferToDigest. now rewrite Hfr. Qed.

Lemma digest_setDigest (hash : string) (st : State) :
  digest (setDigest hash st) = hash.
Proof. reflexivity. Qed.


(** C1: when the reader holds the bytes [B], [bufferToDigest] sets the
    digest to the Blake2 hash, at bit length 256, of the hexadecimal
    string of [B]: the primitive is given the hex string, not the
    bytes. *)
Theorem bufferToDigest_hashes_hex
  (sc : Scope) (reader : FileReader) (B : list byte) (hash : string) :
  fileReader sc = Some reader ->
  result reader = Some B ->
  blake2AsHex (Hex.hex_encode B) 256 = Ok hash ->
  bufferToDigest blake2AsHex sc = (setDigest hash (state sc), None)
  /\ digest (fst (bufferToDigest blake2AsHex sc)) = hash.
Proof.
  intros Hfr Hres Hhash.
  rewrite (bufferToDigest_reader sc reader Hfr), Hres.
  rewrite HexFacts.content_hex_encode, Hhash.
  split; reflexivity.
Qed.


(** C6: for every byte array, the empty one included, the encoding
    yields a well-formed hex string and [bufferToDigest] goes on to the
    hash call and to [setDigest]; it throws exactly when the hash
    primitive throws, with that exception, also when it runs as the
    [onloadend] installed by [handleFileChosen]. *)
Theorem bufferToDigest_only_hash_fails
  (p : Props) (st : State) (B : list byte) :
  Hex.all_chars Hex.is_lower_hex (Hex.content (Some B)) = true
  /\ String.length (Hex.content (Some B)) = (2 * List.length B)%nat
  /\ bufferToDigest blake2AsHex
       {| props := p; state := st;
          fileReader := Some {| result := Some B |} |}
     = match blake2AsHex (Hex.content (Some B)) 256 with
       | Ok hash => (setDigest hash st, None)
       | Throw e => (st, Some e)
       end
  /\ handleFileChosen blake2AsHex (Some B)
       {| props := p; state := st; fileReader := None |}
     = match blake2AsHex (Hex.content (Some B)) 256 with
       | Ok hash => (setDigest hash st, None)
       | Throw e => (st, Some e)
       end.
Proof.
  split; [| split; [| split]].
  - rewrite HexFacts.content_hex_encode. apply HexFacts.hex_encode_lower.
  - rewrite HexFacts.content_hex_encode. apply HexFacts.hex_encode_length.
  - reflexivity.
  - reflexivity.
Qed.

End WithHash.

Import Samples.

Lemma bufferToDigest_hashes_hex_witness :
  fileReader scope_a = Some two_bytes
  /\ result two_bytes = Some [x01; xab]
  /\ tagging_hash (Hex.hex_encode [x01; xab]) 256 = Ok "0x01ab"
  /\ bufferToDigest tagging_hash scope_a = (setDigest "0x01ab" initial, None)
  /\ digest (fst (bufferToDigest tagging_hash scope_a)) = "0x01ab".
Proof.
  repeat (split; [reflexivity |]).
  apply (bufferToDigest_hashes_hex tagging_hash scope_a two_bytes
           [x01; xab] "0x01ab"); reflexivity.
Defined.


Example empty_file_reaches_hash :
  bufferToDigest tagging_hash
    {| props := with_account; state := initial;
       fileReader := Some {| result := Some [] |} |}
  = (setDigest "0x" initial, None).
Proof. reflexivity. Qed.

Example hash_failure_is_passed_on :
  bufferToDigest failing_hash scope_a
  = (initial, Some (LibError "hash failed")).
Proof. reflexivity. Qed.

End HashFacts.

(** ** Results on the subscription effect *)

Module SubscriptionFacts.
Import Component Subscriptions.

Lemma cleanup_calls_at_most_one (r : Run) :
  called (cleanup r) = called r
  \/ exists unsub,
       unsubscribe r = Some unsub
       /\ called (cleanup r) = (called r ++ [unsub])%list.
Proof.
  unfold cleanup. destruct (unsubscribe r) as [unsub|] eqn:E.
  - right. exists unsub. split; reflexivity.
  - now left.
Qed.

Lemma assign_overwrites (u1 u2 : nat) (r : Run) :
  unsubscribe (assign_unsubscribe u2 (assign_unsubscribe u1 r)) = Some u2.
Proof. reflexivity. Qed.

(** Whichever promise resolves last, cleanup ends that subscription only:
    the other one stays open. *)
Lemma cleanup_keeps_earlier_handle (u1 u2 : nat) (r : Run) :
  u1 <> u2 ->
  u1 ∈ active (cleanup (assign_unsubscribe u2 (assign_unsubscribe u1 r))).
Proof. intros Hne. cbn. set_solver. Qed.

(** C3: both subscriptions of a run resolve ([something] with handle 1,
    then [proofs] with handle 2) and cleanup runs: only handle 2 is
    called, and subscription 1 is still open afterwards. *)
Theorem cleanup_leaves_something_subscribed :
  called (run (useEffect initial)
            [SomethingSettled (Resolved 1); ProofsSettled (Resolved 2);
             Cleanup])
  = [2]
  /\ 1 ∈ active (run (useEffect initial)
                   [SomethingSettled (Resolved 1);
                    ProofsSettled (Resolved 2); Cleanup]).
Proof. split; [reflexivity |]. cbn. set_solver. Qed.

Example cleanup_before_resolution_calls_nothing :
  called (run (useEffect initial)
            [Cleanup; SomethingSettled (Resolved 1);
             ProofsSettled (Resolved 2)])
  = [].
Proof. reflexivity. Qed.

Lemma toNumber_u32 (v : N) : is_u32 v -> toNumber v = Ok (Z.of_N v).
Proof.
  unfold is_u32, toNumber. intros Hv.
  destruct (N.ltb_spec v (2 ^ 53)) as [_|Hge]; [reflexivity |].
  exfalso. assert (2 ^ 32 < 2 ^ 53)%N by reflexivity. lia.
Qed.

(** C8: after the [something] callback, [currentValue] is ['<None>'] for a
    [None] and the unwrapped number for a [Some]; the callback throws on no
    [Option<u32>]; a rejected registration goes to [console.error] and is
    not left unhandled. *)
Theorem something_callback_total (st : State) (r : Run) (reason : Exn) :
  somethingCallback None st = (setCurrentValue (VStr "<None>") st, None)
  /\ currentValue (fst (somethingCallback None st)) = VStr "<None>"
  /\ snd (somethingCallback None st) = None
  /\ (forall v, is_u32 v ->
        somethingCallback (Some v) st
        = (setCurrentValue (VNum (Z.of_N v)) st, None)
        /\ currentValue (fst (somethingCallback (Some v) st))
           = VNum (Z.of_N v)
        /\ snd (somethingCallback (Some v) st) = None)
  /\ console_error (something_settled (Rejected reason) r)
     = (console_error r ++ [reason])%list
  /\ unhandled (something_settled (Rejected reason) r) = unhandled r.
Proof.
  split; [reflexivity |]. split; [reflexivity |]. split; [reflexivity |].
  split; [| split; reflexivity].
  intros v Hv. unfold somethingCallback. rewrite (toNumber_u32 v Hv).
  repeat split; reflexivity.
Qed.

Lemma something_callback_total_witness :
  is_u32 7
  /\ somethingCallback (Some 7%N) initial
     = (setCurrentValue (VNum 7) initial, None)
  /\ currentValue (fst (somethingCallback (Some 7%N) initial)) = VNum 7
  /\ snd (somethingCallback (Some 7%N) initial) = None.
Proof.
  assert (H7 : is_u32 7) by reflexivity.
  split; [exact H7 |].
  exact (proj1 (proj2 (proj2 (proj2
           (something_callback_total initial (useEffect initial)
              (TypeError "rejected")))))
           7%N H7).
Defined.

Example proofs_rejection_is_unhandled :
  unhandled (proofs_settled (Rejected (LibError "down")) (useEffect initial))
  = [LibError "down"].
Proof. reflexivity. Qed.

End SubscriptionFacts.

(** ** Results on the rendered panel *)

Module ViewFacts.
Import Component View.

Lemma Main_buttons (p : Props) (st : State) (view : Rendered) :
  Main p st = Ok view ->
  exists off,
    revokeClaim_disabled p st = Ok off
    /\ buttons view = [storeSomething_button p st; createClaim_button p st;
                       revokeClaim_button p st off]
    /\ status_text view = status st.
Proof.
  unfold Main. destruct (revokeClaim_disabled p st) as [off|e]; [| discriminate].
  intros [= <-]. exists off. repeat split; reflexivity.
Qed.

Lemma Main_with_account (account : AccountPair) (st : State) :
  exists view, Main {| accountPair := Some account |} st = Ok view.
Proof.
  unfold Main, revokeClaim_disabled; cbn.
  destruct (negb (isClaimed st)); eauto.
Qed.

Lemma one_disabled (p : Props) (st : State) :
  createClaim_disabled st = true \/ revokeClaim_disabled p st = Ok true.
Proof.
  unfold createClaim_disabled, revokeClaim_disabled.
  destruct (isClaimed st); cbn; auto.
Qed.

(** C4: the three buttons submit signed transactions to [templateModule]:
    [doSomething] with [formValue], [createClaim] with [digest],
    [revokeClaim] with [digest], one parameter each. *)
Theorem buttons_submit_signed_calls
  (p : Props) (st : State) (view : Rendered) :
  Main p st = Ok view ->
  map submission (buttons view)
  = [("SIGNED-TX", "templateModule", "doSomething", [formValue st]);
     ("SIGNED-TX", "templateModule", "createClaim", [VStr (digest st)]);
     ("SIGNED-TX", "templateModule", "revokeClaim", [VStr (digest st)])].
Proof.
  intros Hview. destruct (Main_buttons p st view Hview) as (off & _ & Hb & _).
  rewrite Hb. reflexivity.
Qed.

(** C9: Create Claim and Revoke Claim are never both enabled: in every
    state one of the two [disabled] expressions is true, and so is the
    [disabled] of one of the two rendered buttons. *)
Theorem claim_buttons_never_both_enabled (p : Props) (st : State) :
  (createClaim_disabled st = true \/ revokeClaim_disabled p st = Ok true)
  /\ (forall view, Main p st = Ok view ->
      exists store create revoke,
        buttons view = [store; create; revoke]
        /\ label create = "Create Claim"
        /\ label revoke = "Revoke Claim"
        /\ (disabled create = Some true \/ disabled revoke = Some true)).
Proof.
  split; [apply one_disabled |].
  intros view Hview.
  destruct (Main_buttons p st view Hview) as (off & Hoff & Hb & _).
  exists (storeSomething_button p st), (createClaim_button p st),
    (revokeClaim_button p st off).
  repeat split; [assumption |]. cbn.
  destruct (one_disabled p st) as [Hc | Hr].
  - left. now rewrite Hc.
  - right. congruence.
Qed.

Section WithEvents.

Variable blake2AsHex : string -> N -> Result string.
Variable p : Props.

Lemma status_after (st : State) (ev : Event) :
  status (after blake2AsHex p st ev)
  = match ev with
    | StatusReported s => s
    | _ => status st
    end.
Proof.
  destruct ev as [value | read | newValue | result | s];
    unfold after, handle; try reflexivity.
  - unfold handleFileChosen, bufferToDigest; cbn.
    destruct (blake2AsHex _ 256); reflexivity.
  - unfold somethingCallback. destruct newValue as [v|]; [| reflexivity].
    destruct (toNumber v); reflexivity.
  - unfold proofsCallback. destruct (toNumber (snd result)); reflexivity.
Qed.

Lemma last_cons_default (s d : string) (l : list string) :
  List.last (s :: l) d = List.last l s.
Proof.
  revert s d. induction l as [|x l IH]; intros s d; [reflexivity |].
  change (List.last (x :: l) d = List.last (x :: l) s).
  now rewrite (IH x d), (IH x s).
Qed.

Lemma status_fold (evs : list Event) (st : State) :
  status (fold_left (after blake2AsHex p) evs st)
  = List.last (reported evs) (status st).
Proof.
  revert st. induction evs as [|ev evs IH]; intros st; [reflexivity |].
  cbn [fold_left]. rewrite IH, status_after.
  destruct ev; try reflexivity.
  cbn [reported]. now rewrite last_cons_default.
Qed.

(** C7: every button is given [setStatus] as its status sink, and the
    status line shows the last string passed to it, the empty string
    before any; no other event changes it. *)
Theorem status_is_last_reported (evs : list Event) (view : Rendered) :
  Main p (run blake2AsHex p evs) = Ok view ->
  Forall (fun b => tx_setStatus b = setStatus) (buttons view)
  /\ List.length (buttons view) = 3%nat
  /\ status_text view = List.last (reported evs) "".
Proof.
  intros Hview.
  destruct (Main_buttons _ _ _ Hview) as (off & _ & Hb & Hs).
  rewrite Hb, Hs. split; [| split].
  - repeat constructor.
  - reflexivity.
  - unfold run. now rewrite status_fold.
Qed.

End WithEvents.

Import Samples.

Lemma buttons_submit_signed_calls_witness :
  exists view,
    Main with_account claimed_by_alice = Ok view
    /\ map submission (buttons view)
       = [("SIGNED-TX", "templateModule", "doSomething", [VNum 0]);
          ("SIGNED-TX", "templateModule", "createClaim", [VStr "0x01ab"]);
          ("SIGNED-TX", "templateModule", "revokeClaim", [VStr "0x01ab"])].
Proof.
  eexists. split; [reflexivity |].
  apply (buttons_submit_signed_calls with_account claimed_by_alice).
  reflexivity.
Defined.

Lemma claim_buttons_never_both_enabled_witness :
  exists view,
    Main with_account claimed_by_alice = Ok view
    /\ exists store create revoke,
        buttons view = [store; create; revoke]
        /\ label create = "Create Claim"
        /\ label revoke = "Revoke Claim"
        /\ (disabled create = Some true \/ disabled revoke = Some true).
Proof.
  eexists. split; [reflexivity |].
  apply (proj2 (claim_buttons_never_both_enabled
                  with_account claimed_by_alice)).
  reflexivity.
Defined.

Lemma status_is_last_reported_witness :
  exists view,
    Main with_account
      (run tagging_hash with_account
         [StatusReported "Sending..."; FileChosen (Some [x01; xab]);
          StatusReported "Finalized"; InputChanged "5"])
    = Ok view
    /\ status_text view = "Finalized".
Proof.
  eexists. split; [reflexivity |].
  apply (status_is_last_reported tagging_hash with_account
           [StatusReported "Sending..."; FileChosen (Some [x01; xab]);
            StatusReported "Finalized"; InputChanged "5"]).
  reflexivity.
Defined.

Example claimed_without_account_throws :
  Main without_account claimed_by_alice
  = Throw (TypeError "accountPair is null").
Proof. reflexivity. Qed.

End ViewFacts.

(** ** Results on the exported component *)

Module ExportedFacts.
Import Component Exported.

(** C10: [TemplateModule] renders [Main] exactly when
    [api.query.templateModule] is there with both its [something] and
    [proofs] entries, and renders [null] otherwise. *)
Theorem TemplateModule_guard (api : Api) (p : Props) :
  (TemplateModule api p = MainElement p <-> has_both_queries api)
  /\ (TemplateModule api p = Null <-> ~ has_both_queries api).
Proof.
  unfold TemplateModule, has_both_queries.
  destruct (query api !! "templateModule") as [pallet|] eqn:Hp.
  - destruct (pallet !! "something") as [e1|] eqn:H1.
    + destruct (pallet !! "proofs") as [e2|] eqn:H2.
      * split; split; try discriminate.
        -- intros _. exists pallet. rewrite H1, H2. eauto.
        -- reflexivity.
        -- intros Hn. exfalso. apply Hn. exists pallet.
           rewrite H1, H2. eauto.
      * split; split; try discriminate; try reflexivity.
        -- intros (q & [= <-] & _ & Hq). rewrite H2 in Hq.
           now destruct Hq.
        -- intros _ (q & [= <-] & _ & Hq). rewrite H2 in Hq.
           now destruct Hq.
    + split; split; try discriminate; try reflexivity.
      * intros (q & [= <-] & Hq & _). rewrite H1 in Hq. now destruct Hq.
      * intros _ (q & [= <-] & Hq & _). rewrite H1 in Hq. now destruct Hq.
  - split; split; try discriminate; try reflexivity.
    + intros (q & [=] & _).
    + intros _ (q & [=] & _).
Qed.

Example TemplateModule_full :
  TemplateModule
    {| query := {[ "templateModule" :=
                    {[ "something" := Entry 0; "proofs" := Entry 1 ]} ]} |}
    Samples.with_account
  = MainElement Samples.with_account.
Proof. reflexivity. Qed.

Example TemplateModule_without_proofs :
  TemplateModule
    {| query := {[ "templateModule" := {[ "something" := Entry 0 ]} ]} |}
    Samples.with_account
  = Null.
Proof. reflexivity. Qed.

End ExportedFacts.

(** ** Further results on the hexadecimal encoding *)

Module HexMore.
Import Hex.

Lemma content_Uint8Array (read : option (list byte)) :
  content read = hex_encode (Uint8Array read).
Proof.
  destruct read as [B|]; [apply HexFacts.content_hex_encode | reflexivity].
Qed.

Lemma append_assoc (a b c : string) : (a ++ b) ++ c = a ++ (b ++ c).
Proof.
  induction a as [|x a IH]; [reflexivity |].
  change (String x ((a ++ b) ++ c) = String x (a ++ (b ++ c))).
  now rewrite IH.
Qed.

Lemma hex_encode_app (B1 B2 : list byte) :
  hex_encode (B1 ++ B2)%list = hex_encode B1 ++ hex_encode B2.
Proof.
  induction B1 as [|b B1 IH]; [reflexivity |].
  change (two_digits b ++ hex_encode (B1 ++ B2)%list
          = (two_digits b ++ hex_encode B1) ++ hex_encode B2).
  now rewrite IH, append_assoc.
Qed.

(** The hex string determines the bytes: two reader results with the same
    [content] hold the same bytes, so different files never give the hash
    the same input. *)
Theorem content_injective (read1 read2 : option (list byte)) :
  content read1 = content read2 -> Uint8Array read1 = Uint8Array read2.
Proof.
  rewrite !content_Uint8Array. intros Heq.
  apply (f_equal hex_decode) in Heq.
  rewrite !HexFacts.hex_decode_encode in Heq. congruence.
Qed.

Lemma content_injective_witness :
  content (Some [x01; xab]) = content (Some [x01; xab])
  /\ Uint8Array (Some [x01; xab]) = Uint8Array (Some [x01; xab]).
Proof.
  split; [reflexivity |].
  apply (content_injective (Some [x01; xab]) (Some [x01; xab])).
  reflexivity.
Defined.

(** The encoding of a file is the encoding of its first part followed by
    the encoding of the rest: no byte's digits depend on its neighbours. *)
Theorem content_app (B1 B2 : list byte) :
  content (Some (B1 ++ B2)%list) = content (Some B1) ++ content (Some B2).
Proof. rewrite !HexFacts.content_hex_encode. apply hex_encode_app. Qed.

(** [padStart] adds its ['0'] exactly to the bytes below 16, whose
    [toString(16)] is a single digit; every other byte already has two
    digits and is left as [toString(16)] gives it. *)
Theorem byte_to_hex_padding (b : byte) :
  byte_to_hex b
  = (if (Byte.to_N b <? 16)%N
     then String "0" (toString16 (Byte.to_N b))
     else toString16 (Byte.to_N b))
  /\ String.length (toString16 (Byte.to_N b))
     = (if (Byte.to_N b <? 16)%N then 1%nat else 2%nat).
Proof. destruct b; split; reflexivity. Qed.

End HexMore.

(** ** Further results on the hashing glue *)

Module HashMore.
Import Component.

Lemma setDigest_same (st : State) : setDigest (digest st) st = st.
Proof. now destruct st. Qed.

Section WithHash.

Variable blake2AsHex : string -> N -> Result string.

(** A reader without a result (a read that failed leaves [null]) is hashed
    like an empty file: the hash is given the empty string, and the digest
    set is the one an empty file gets. *)
Theorem failed_read_is_empty_file (sc : Scope) :
  handleFileChosen blake2AsHex None sc
  = handleFileChosen blake2AsHex (Some []) sc
  /\ handleFileChosen blake2AsHex None sc
     = match blake2AsHex "" 256 with
       | Ok hash => (setDigest hash (state sc), None)
       | Throw e => (state sc, Some e)
       end.
Proof. split; reflexivity. Qed.

(** [bufferToDigest] writes no cell but [digest]: the state it leaves is the
    old one with at most the digest replaced, and when it throws (the hash
    failed, or no reader exists) the state, its previous digest included,
    is the old one. *)
Theorem bufferToDigest_frame (sc : Scope) :
  fst (bufferToDigest blake2AsHex sc)
  = setDigest (digest (fst (bufferToDigest blake2AsHex sc))) (state sc)
  /\ (snd (bufferToDigest blake2AsHex sc) = None
      \/ fst (bufferToDigest blake2AsHex sc) = state sc).
Proof.
  unfold bufferToDigest.
  destruct (fileReader sc) as [reader|]; cbn.
  - destruct (blake2AsHex _ 256) as [hash|e]; cbn.
    + split; [reflexivity | now left].
    + split; [symmetry; apply setDigest_same | now right].
  - split; [symmetry; apply setDigest_same | now right].
Qed.

End WithHash.

End HashMore.

(** ** Results on several readers in one render *)

Module ReaderFacts.
Import Component Readers.

Section WithHash.

Variable blake2AsHex : string -> N -> Result string.



(** When a second file was chosen in the same render, the [onloadend] of an
    earlier reader does not hash the bytes that reader has read: it hashes
    the result of the newest reader, the one [fileReader] names by then. *)
Theorem superseded_reader_hashes_newest (rs0 : list FileReader)
  (r : FileReader) (k : nat) (outcome : option (list byte))
  (p : Props) (st : State) :
  (k < List.length rs0)%nat ->
  snd (loadend blake2AsHex k outcome p (rs0 ++ [r])%list st)
  = match blake2AsHex (Hex.content (result r)) 256 with
    | Ok hash => (setDigest hash st, None)
    | Throw e => (st, Some e)
    end.
Proof.
  intros Hk. unfold loadend, current.
  destruct (lookup_lt_is_Some_2 (rs0 ++ [r])%list k) as [r0 Hr0].
  { rewrite length_app. lia. }
  rewrite Hr0, insert_app_l by exact Hk.
  cbn [snd]. rewrite last_snoc. reflexivity.
Qed.

End WithHash.

Import Samples.

Lemma superseded_reader_hashes_newest_witness :
  (0 < List.length [{| result := None |}])%nat
  /\ snd (loadend tagging_hash 0 (Some [x01; xab]) with_account
            ([{| result := None |}] ++ [{| result := None |}])%list initial)
     = (setDigest "0x" initial, None).
Proof.
  split; [cbn; lia |].
  apply (superseded_reader_hashes_newest tagging_hash
           [{| result := None |}] {| result := None |} 0
           (Some [x01; xab]) with_account initial).
  cbn; lia.
Defined.

Example second_file_then_first_loadend :
  snd (loadend tagging_hash 0 (Some [x01; xab]) with_account
         (choose (choose [])) initial)
  = (setDigest "0x" initial, None).
Proof. reflexivity. Qed.

Example loadend_of_unknown_reader :
  loadend tagging_hash 3 (Some [x01]) with_account (choose []) initial
  = (choose [], (initial, None)).
Proof. reflexivity. Qed.

End ReaderFacts.

(** ** Results on sequences of settlements *)

Module EffectTraces.
Import Component Subscriptions Traces.

#[local] Set Warnings "-clear-no-such-hyp".

Lemma run_app (r : Run) (evs1 evs2 : list Event) :
  run r (evs1 ++ evs2)%list = run (run r evs1) evs2.
Proof. unfold run. apply fold_left_app. Qed.

Lemma unsubscribe_cleanup (r : Run) : unsubscribe (cleanup r) = unsubscribe r.
Proof. unfold cleanup. destruct (unsubscribe r) eqn:E; [reflexivity | exact E]. Qed.

Lemma unsubscribe_run (evs : list Event) (r : Run) :
  unsubscribe (run r evs)
  = match list.last (resolved evs) with
    | Some u => Some u
    | None => unsubscribe r
    end.
Proof.
  revert r. induction evs as [|ev evs IH]; intros r; [reflexivity |].
  change (run r (ev :: evs)) with (run (step r ev) evs). rewrite IH.
  destruct ev as [[u|e] | [u|e] |]; cbn [resolved step];
    rewrite ?last_cons; try (destruct (list.last (resolved evs)); reflexivity).
  destruct (list.last (resolved evs)); [reflexivity | apply unsubscribe_cleanup].
Qed.

Lemma settlements_run (evs : list Event) (r : Run) :
  settlements_only evs = true ->
  active (run r evs) = list_to_set (resolved evs) ∪ active r
  /\ called (run r evs) = called r.
Proof.
  revert r. induction evs as [|ev evs IH]; intros r Hs.
  - split; [cbn; set_solver | reflexivity].
  - change (run r (ev :: evs)) with (run (step r ev) evs).
    destruct ev as [[u|e] | [u|e] |]; cbn [settlements_only] in Hs;
      try discriminate;
      match goal with
      | |- context [run (step r ?ev) evs] =>
          destruct (IH (step r ev) Hs) as [Ha Hc]
      end;
      rewrite Ha, Hc; cbn; split; try reflexivity; set_solver.
Qed.

Lemma errors_run (evs : list Event) (r : Run) :
  console_error (run r evs)
  = (console_error r ++ something_rejections evs)%list
  /\ unhandled (run r evs) = (unhandled r ++ proofs_rejections evs)%list.
Proof.
  revert r. induction evs as [|ev evs IH]; intros r.
  - cbn. now rewrite !app_nil_r.
  - change (run r (ev :: evs)) with (run (step r ev) evs).
    destruct (IH (step r ev)) as [Hc Hu]. rewrite Hc, Hu.
    destruct ev as [[u|e] | [u|e] |]; cbn [step something_rejections
      proofs_rejections]; try (split; reflexivity).
    + cbn. now rewrite <- app_assoc.
    + cbn. now rewrite <- app_assoc.
    + unfold cleanup. destruct (unsubscribe r); split; reflexivity.
Qed.

(** The one [unsubscribe] variable holds the function delivered last: each
    resolution overwrites what the other one stored, and neither a
    rejection nor the cleanup changes it. *)
Theorem unsubscribe_is_last_resolved (st : State) (evs : list Event) :
  unsubscribe (run (useEffect st) evs) = list.last (resolved evs).
Proof.
  rewrite unsubscribe_run. destruct (list.last (resolved evs)); reflexivity.
Qed.

(** Cleanup after any settlements calls the unsubscribe function delivered
    last and no other: every other subscription that was opened is still
    open afterwards.  When nothing was delivered it calls nothing. *)
Theorem cleanup_calls_last_resolved_only (st : State) (evs : list Event) :
  settlements_only evs = true ->
  called (run (useEffect st) (evs ++ [Cleanup])%list)
  = option_list (list.last (resolved evs))
  /\ active (run (useEffect st) (evs ++ [Cleanup])%list)
     = list_to_set (resolved evs)
       ∖ list_to_set (option_list (list.last (resolved evs))).
Proof.
  intros Hs. rewrite run_app.
  change (run (run (useEffect st) evs) [Cleanup])
    with (cleanup (run (useEffect st) evs)).
  destruct (settlements_run evs (useEffect st) Hs) as [Ha Hc].
  pose proof (unsubscribe_is_last_resolved st evs) as Hu.
  unfold cleanup. destruct (list.last (resolved evs)) as [u|]; rewrite Hu.
  - cbn [called active option_list]. rewrite Hc, Ha. cbn.
    split; [reflexivity | set_solver].
  - rewrite Hc, Ha. cbn. split; [reflexivity | set_solver].
Qed.

Lemma cleanup_calls_last_resolved_only_witness :
  settlements_only
    [ProofsSettled (Resolved 2); SomethingSettled (Resolved 1)] = true
  /\ called (run (useEffect initial)
               ([ProofsSettled (Resolved 2); SomethingSettled (Resolved 1)]
                ++ [Cleanup])%list)
     = [1].
Proof.
  split; [reflexivity |].
  exact (proj1 (cleanup_calls_last_resolved_only initial
                  [ProofsSettled (Resolved 2); SomethingSettled (Resolved 1)]
                  eq_refl)).
Defined.

(** A cleanup that runs before the promises settle finds [unsubscribe]
    undefined and calls nothing; the subscriptions that open afterwards are
    never closed by this run. *)
Theorem early_cleanup_closes_nothing (st : State) (evs : list Event) :
  settlements_only evs = true ->
  called (run (useEffect st) (Cleanup :: evs)) = []
  /\ active (run (useEffect st) (Cleanup :: evs))
     = list_to_set (resolved evs).
Proof.
  intros Hs.
  change (run (useEffect st) (Cleanup :: evs))
    with (run (useEffect st) evs).
  destruct (settlements_run evs (useEffect st) Hs) as [Ha Hc].
  rewrite Ha, Hc. cbn. split; [reflexivity | set_solver].
Qed.

Lemma early_cleanup_closes_nothing_witness :
  settlements_only
    [SomethingSettled (Resolved 1); ProofsSettled (Resolved 2)] = true
  /\ called (run (useEffect initial)
               (Cleanup :: [SomethingSettled (Resolved 1);
                            ProofsSettled (Resolved 2)]))
     = [].
Proof.
  split; [reflexivity |].
  exact (proj1 (early_cleanup_closes_nothing initial
                  [SomethingSettled (Resolved 1); ProofsSettled (Resolved 2)]
                  eq_refl)).
Defined.

(** Only the [something] promise has a [catch]: over any sequence of
    events, [console.error] receives exactly the reasons [something] was
    rejected with, and every rejection of [proofs] is left unhandled. *)
Theorem rejections_logged_or_unhandled (st : State) (evs : list Event) :
  console_error (run (useEffect st) evs) = something_rejections evs
  /\ unhandled (run (useEffect st) evs) = proofs_rejections evs.
Proof. destruct (errors_run evs (useEffect st)) as [Hc Hu]. now rewrite Hc, Hu. Qed.

End EffectTraces.

(** ** Further results on the rendered panel *)

Module ViewMore.
Import Component View Traces Samples.

Lemma isClaimed_block (st : State) : isClaimed st = true <-> block st <> 0%Z.
Proof.
  unfold isClaimed. destruct (Z.eqb_spec (block st) 0) as [E|E]; cbn.
  - split; [discriminate | contradiction].
  - split; auto.
Qed.

(** The success message "File Digest Unclaimed" is shown exactly when
    Create Claim is enabled, and never together with the warning
    "File Digest Claimed". *)
Theorem unclaimed_message_iff_create_enabled
  (p : Props) (st : State) (view : Rendered) :
  Main p st = Ok view ->
  form_success view = negb (createClaim_disabled st)
  /\ form_success view && form_warning view = false
  /\ exists store create revoke,
       buttons view = [store; create; revoke]
       /\ disabled create = Some (negb (form_success view)).
Proof.
  unfold Main. destruct (revokeClaim_disabled p st) as [off|e]; [| discriminate].
  intros [= <-]. cbn [form_success form_warning buttons].
  split; [| split].
  - unfold createClaim_disabled.
    destruct (isClaimed st), (truthy_string (digest st)); reflexivity.
  - destruct (isClaimed st), (truthy_string (digest st)); reflexivity.
  - exists (storeSomething_button p st), (createClaim_button p st),
      (revokeClaim_button p st off).
    split; [reflexivity |]. cbn [createClaim_button disabled].
    unfold createClaim_disabled.
    destruct (isClaimed st), (truthy_string (digest st)); reflexivity.
Qed.

(** Revoke Claim is enabled exactly for a claimed digest (a block number
    other than 0) whose stored owner is the address of the selected account;
    in particular it is never enabled without an account. *)
Theorem revoke_enabled_iff_owner (p : Props) (st : State) :
  revokeClaim_disabled p st = Ok false
  <-> block st <> 0%Z
      /\ exists account,
           accountPair p = Some account /\ owner st = address account.
Proof.
  unfold revokeClaim_disabled.
  destruct (isClaimed st) eqn:Hc; cbn.
  - apply isClaimed_block in Hc.
    destruct (accountPair p) as [account|].
    + destruct (String.eqb_spec (owner st) (address account)) as [E|E]; cbn.
      * split; [intros _; split; eauto | reflexivity].
      * split; [discriminate | intros (_ & a & [= <-] & Ha); contradiction].
    + split; [discriminate | intros (_ & a & [=] & _)].
  - split; [discriminate |].
    intros [Hb _]. apply isClaimed_block in Hb. congruence.
Qed.

(** [Main] fails to render in one situation only: a claimed digest while
    the parent has handed down no account; it then throws a TypeError from
    reading [accountPair.address]. *)
Theorem Main_throws_iff (p : Props) (st : State) (e : Exn) :
  Main p st = Throw e
  <-> block st <> 0%Z
      /\ accountPair p = None
      /\ e = TypeError "accountPair is null".
Proof.
  unfold Main, revokeClaim_disabled.
  destruct (isClaimed st) eqn:Hc; cbn.
  - apply isClaimed_block in Hc. destruct (accountPair p) as [account|].
    + split; [discriminate | intros (_ & [=] & _)].
    + split; [intros [= <-]; auto | intros (_ & _ & ->); reflexivity].
  - split; [discriminate |].
    intros [Hb _]. apply isClaimed_block in Hb. congruence.
Qed.

(** For the chain's [u32] block numbers the [proofs] callback never throws:
    afterwards [owner] and [block] are the delivered pair, the other four
    cells are what they were, and the digest counts as claimed exactly when
    the delivered block number is not 0, whatever the owner is. *)
Theorem proofsCallback_u32 (o : string) (b : N) (st : State) :
  is_u32 b ->
  proofsCallback (o, b) st = (setBlock (Z.of_N b) (setOwner o st), None)
  /\ owner (fst (proofsCallback (o, b) st)) = o
  /\ block (fst (proofsCallback (o, b) st)) = Z.of_N b
  /\ snd (proofsCallback (o, b) st) = None
  /\ status (fst (proofsCallback (o, b) st)) = status st
  /\ digest (fst (proofsCallback (o, b) st)) = digest st
  /\ currentValue (fst (proofsCallback (o, b) st)) = currentValue st
  /\ formValue (fst (proofsCallback (o, b) st)) = formValue st
  /\ isClaimed (fst (proofsCallback (o, b) st)) = negb (b =? 0)%N.
Proof.
  intros Hb. unfold proofsCallback. cbn [fst snd].
  rewrite (SubscriptionFacts.toNumber_u32 b Hb).
  repeat (split; [reflexivity |]).
  unfold isClaimed; cbn.
  destruct (N.eqb_spec b 0) as [-> | Hne]; [reflexivity |].
  destruct (Z.eqb_spec (Z.of_N b) 0) as [E|E]; [lia | reflexivity].
Qed.

Lemma proofsCallback_u32_witness :
  is_u32 12
  /\ proofsCallback ("5Grw", 12%N) claimed_elsewhere
     = (setBlock 12 (setOwner "5Grw" claimed_elsewhere), None)
  /\ owner (fst (proofsCallback ("5Grw", 12%N) claimed_elsewhere)) = "5Grw"
  /\ block (fst (proofsCallback ("5Grw", 12%N) claimed_elsewhere)) = 12%Z
  /\ snd (proofsCallback ("5Grw", 12%N) claimed_elsewhere) = None
  /\ status (fst (proofsCallback ("5Grw", 12%N) claimed_elsewhere)) = "sent"
  /\ digest (fst (proofsCallback ("5Grw", 12%N) claimed_elsewhere)) = "0xff"
  /\ currentValue (fst (proofsCallback ("5Grw", 12%N) claimed_elsewhere))
     = VStr "<None>"
  /\ formValue (fst (proofsCallback ("5Grw", 12%N) claimed_elsewhere))
     = VStr "42"
  /\ isClaimed (fst (proofsCallback ("5Grw", 12%N) claimed_elsewhere))
     = true.
Proof.
  assert (H12 : is_u32 12) by reflexivity.
  split; [exact H12 |].
  exact (proofsCallback_u32 "5Grw" 12 claimed_elsewhere H12).
Defined.

Example proofsCallback_large_block :
  proofsCallback ("5Grw", (2 ^ 53)%N) initial
  = (setOwner "5Grw" initial,
     Some (LibError "Number can only safely store up to 53 bits")).
Proof. reflexivity. Qed.

End ViewMore.

(** ** Results on sequences of component events *)

Module EventTraces.
Import Component View Traces.

Lemma toNumber_safe (v : N) (n : Z) : toNumber v = Ok n -> safe_number n.
Proof.
  unfold toNumber, safe_number.
  assert (E53 : (2 ^ 53)%N = 9007199254740992%N) by reflexivity.
  assert (Z53 : (2 ^ 53)%Z = 9007199254740992%Z) by reflexivity.
  rewrite E53, Z53.
  destruct (N.ltb_spec v 9007199254740992) as [Hlt|Hge]; [| discriminate].
  intros [= <-]. lia.
Qed.

Section WithEvents.

Variable blake2AsHex : string -> N -> Result string.
Variable p : Props.

(** Case analysis on what a callback meets. *)
Ltac callback_cases :=
  unfold after, handle, handleFileChosen, bufferToDigest,
    somethingCallback, proofsCallback;
  cbn [fst snd fileReader state result];
  try match goal with
      | newValue : option N |- _ => destruct newValue as [v|]
      end;
  try destruct (blake2AsHex _ 256) as [hash|e];
  try destruct (toNumber _) as [n|e] eqn:Hnum;
  cbn [fst snd].

(** Case analysis on the event, then on its callback. *)
Ltac event_cases ev :=
  destruct ev as [value | read | newValue | result | s]; callback_cases.

Lemma fold_invariant (P : State -> Prop) :
  (forall st ev, P st -> P (after blake2AsHex p st ev)) ->
  forall evs st, P st -> P (fold_left (after blake2AsHex p) evs st).
Proof.
  intros Hstep evs. induction evs as [|ev evs IH]; intros st Hst; [exact Hst |].
  cbn [fold_left]. apply IH, Hstep, Hst.
Qed.


(** Every digest the component ever holds, and so every digest Create
    Claim or Revoke Claim can submit, is the initial empty string or a
    value the hash primitive returned for the hex string of some bytes. *)
Theorem digest_is_hash_of_hex (evs : list Event) :
  digest (run blake2AsHex p evs) = ""
  \/ exists B,
      blake2AsHex (Hex.hex_encode B) 256
      = Ok (digest (run blake2AsHex p evs)).
Proof.
  unfold run.
  apply (fold_invariant
           (fun st => digest st = ""
                      \/ exists B, blake2AsHex (Hex.hex_encode B) 256
                                   = Ok (digest st))); [| now left].
  intros st ev Hst. destruct ev as [value | read | newValue | result | s].
  - exact Hst.
  - unfold after, handle, handleFileChosen, bufferToDigest.
    cbn [fst snd fileReader state result].
    rewrite HexMore.content_Uint8Array.
    destruct (blake2AsHex _ 256) as [hash|e] eqn:Hh; cbn [fst]; [| exact Hst].
    right. exists (Uint8Array read). exact Hh.
  - unfold after, handle, somethingCallback.
    destruct newValue as [v|]; [| exact Hst].
    destruct (toNumber v); exact Hst.
  - unfold after, handle, proofsCallback.
    destruct (toNumber (snd result)); exact Hst.
  - exact Hst.
Qed.

(** The numbers the component holds stay in the range [toNumber] can
    return: the block number is never negative, and the current value is
    such a number or the string ['<None>']. *)
Theorem numbers_stay_safe (evs : list Event) :
  safe_number (block (run blake2AsHex p evs))
  /\ (currentValue (run blake2AsHex p evs) = VStr "<None>"
      \/ exists n,
          currentValue (run blake2AsHex p evs) = VNum n /\ safe_number n).
Proof.
  unfold run.
  apply (fold_invariant
           (fun st => safe_number (block st)
                      /\ (currentValue st = VStr "<None>"
                          \/ exists n, currentValue st = VNum n
                                       /\ safe_number n))).
  - intros st ev [Hb Hc]. event_cases ev; try (split; assumption).
    + split; [exact Hb |]. right. exists n. split; [reflexivity |].
      exact (toNumber_safe _ _ Hnum).
    + split; [exact Hb | now left].
    + split; [exact (toNumber_safe _ _ Hnum) | exact Hc].
  - split; [unfold safe_number; cbn; lia |].
    right. exists 0%Z. split; [reflexivity | unfold safe_number; lia].
Qed.

Lemma digest_without_file (evs : list Event) (st : State) :
  no_file evs = true ->
  digest (fold_left (after blake2AsHex p) evs st) = digest st.
Proof.
  revert st. induction evs as [|ev evs IH]; intros st Hn; [reflexivity |].
  cbn [fold_left].
  destruct ev as [value | read | newValue | result | s];
    cbn [no_file] in Hn; try discriminate; rewrite (IH _ Hn).
  - reflexivity.
  - callback_cases; reflexivity.
  - callback_cases; reflexivity.
  - reflexivity.
Qed.

Lemma block_without_proofs (evs : list Event) (st : State) :
  no_proofs evs = true ->
  block (fold_left (after blake2AsHex p) evs st) = block st.
Proof.
  revert st. induction evs as [|ev evs IH]; intros st Hn; [reflexivity |].
  cbn [fold_left].
  destruct ev as [value | read | newValue | result | s];
    cbn [no_proofs] in Hn; try discriminate; rewrite (IH _ Hn).
  - reflexivity.
  - callback_cases; reflexivity.
  - callback_cases; reflexivity.
  - reflexivity.
Qed.

Lemma formValue_fold (evs : list Event) (st : State) :
  formValue (fold_left (after blake2AsHex p) evs st)
  = match list.last (typed evs) with
    | Some value => VStr value
    | None => formValue st
    end.
Proof.
  revert st. induction evs as [|ev evs IH]; intros st; [reflexivity |].
  cbn [fold_left]. rewrite IH.
  destruct ev as [value | read | newValue | result | s]; cbn [typed].
  - rewrite last_cons. destruct (list.last (typed evs)); reflexivity.
  - destruct (list.last (typed evs)); [reflexivity |].
    callback_cases; reflexivity.
  - destruct (list.last (typed evs)); [reflexivity |].
    callback_cases; reflexivity.
  - destruct (list.last (typed evs)); [reflexivity |].
    callback_cases; reflexivity.
  - destruct (list.last (typed evs)); reflexivity.
Qed.

(** Until a file has been chosen the digest stays empty and Create Claim
    stays disabled, whatever the subscriptions deliver and whatever is
    typed or reported. *)
Theorem create_disabled_without_file (evs : list Event) :
  no_file evs = true ->
  digest (run blake2AsHex p evs) = ""
  /\ createClaim_disabled (run blake2AsHex p evs) = true.
Proof.
  intros Hn. unfold run, createClaim_disabled.
  rewrite (digest_without_file evs initial Hn). cbn.
  split; [reflexivity | apply orb_true_r].
Qed.

(** Until the [proofs] subscription delivers, the block number stays 0: the
    panel renders even without an account, shows no claimed warning, and
    Revoke Claim is disabled. *)
Theorem renders_unclaimed_without_proofs (evs : list Event) :
  no_proofs evs = true ->
  exists view,
    Main p (run blake2AsHex p evs) = Ok view
    /\ form_warning view = false
    /\ revokeClaim_disabled p (run blake2AsHex p evs) = Ok true.
Proof.
  intros Hn.
  assert (Hc : isClaimed (run blake2AsHex p evs) = false).
  { unfold isClaimed, run. now rewrite (block_without_proofs evs initial Hn). }
  unfold Main, revokeClaim_disabled. rewrite Hc. cbn.
  eexists. split; [reflexivity | split; reflexivity].
Qed.

(** Store Something submits what was typed last into New Value, as the
    string the input delivers; before anything is typed it submits the
    number 0. *)
Theorem store_submits_last_typed (evs : list Event) (view : Rendered) :
  Main p (run blake2AsHex p evs) = Ok view ->
  exists store create revoke,
    buttons view = [store; create; revoke]
    /\ callable (attrs store) = "doSomething"
    /\ inputParams (attrs store)
       = [match list.last (typed evs) with
          | Some value => VStr value
          | None => VNum 0
          end].
Proof.
  intros Hview.
  destruct (ViewFacts.Main_buttons _ _ _ Hview) as (off & _ & Hb & _).
  exists (storeSomething_button p (run blake2AsHex p evs)),
    (createClaim_button p (run blake2AsHex p evs)),
    (revokeClaim_button p (run blake2AsHex p evs) off).
  split; [exact Hb | split; [reflexivity |]].
  cbn. unfold run. now rewrite formValue_fold.
Qed.

End WithEvents.

End EventTraces.

(** ** The results above at concrete inputs *)

Module TraceSamples.
Import Component View Traces Samples.

Lemma unclaimed_message_iff_create_enabled_witness :
  exists view,
    Main with_account (setDigest "0x01ab" initial) = Ok view
    /\ form_success view = true
    /\ form_success view && form_warning view = false
    /\ exists store create revoke,
         buttons view = [store; create; revoke]
         /\ disabled create = Some (negb (form_success view)).
Proof.
  eexists. split; [reflexivity |].
  apply (ViewMore.unclaimed_message_iff_create_enabled
           with_account (setDigest "0x01ab" initial)).
  reflexivity.
Defined.

Lemma create_disabled_without_file_witness :
  no_file [SomethingDelivered (Some 5%N); ProofsDelivered ("5Grw", 0%N);
           InputChanged "7"; StatusReported "Ready"] = true
  /\ digest (run tagging_hash with_account
               [SomethingDelivered (Some 5%N); ProofsDelivered ("5Grw", 0%N);
                InputChanged "7"; StatusReported "Ready"]) = ""
  /\ createClaim_disabled
       (run tagging_hash with_account
          [SomethingDelivered (Some 5%N); ProofsDelivered ("5Grw", 0%N);
           InputChanged "7"; StatusReported "Ready"]) = true.
Proof.
  split; [reflexivity |].
  apply (EventTraces.create_disabled_without_file tagging_hash with_account
           [SomethingDelivered (Some 5%N); ProofsDelivered ("5Grw", 0%N);
            InputChanged "7"; StatusReported "Ready"]).
  reflexivity.
Defined.

Lemma renders_unclaimed_without_proofs_witness :
  no_proofs [FileChosen (Some [x01; xab]); SomethingDelivered None] = true
  /\ exists view,
       Main without_account
         (run tagging_hash without_account
            [FileChosen (Some [x01; xab]); SomethingDelivered None])
       = Ok view
       /\ form_warning view = false
       /\ revokeClaim_disabled without_account
            (run tagging_hash without_account
               [FileChosen (Some [x01; xab]); SomethingDelivered None])
          = Ok true.
Proof.
  split; [reflexivity |].
  apply (EventTraces.renders_unclaimed_without_proofs tagging_hash
           without_account
           [FileChosen (Some [x01; xab]); SomethingDelivered None]).
  reflexivity.
Defined.

Lemma store_submits_last_typed_witness :
  exists view,
    Main with_account
      (run tagging_hash with_account
         [InputChanged "4"; FileChosen (Some [x01]); InputChanged "42"])
    = Ok view
    /\ exists store create revoke,
         buttons view = [store; create; revoke]
         /\ callable (attrs store) = "doSomething"
         /\ inputParams (attrs store) = [VStr "42"].
Proof.
  eexists. split; [reflexivity |].
  apply (EventTraces.store_submits_last_typed tagging_hash with_account
           [InputChanged "4"; FileChosen (Some [x01]); InputChanged "42"]).
  reflexivity.
Defined.

Example claimed_then_revoked :
  createClaim_disabled
    (run tagging_hash with_account
       [FileChosen (Some [x01; xab]); ProofsDelivered ("5Grw", 12%N);
        ProofsDelivered ("", 0%N)])
  = false.
Proof. reflexivity. Qed.

End TraceSamples.
